(** * Last Used Virtual Desktops: a shallow embedding of the KWin script

    This development embeds [src/contents/code/main.js] (class
    [LastUsedDesktops]) and proves properties of its history engine.

    Modelling choices.
    - A desktop identifier (a UUID string in KWin) is a [string]; a JS
      [null] identifier is [None] in an [option string].
    - [workspace.desktops] is a list of records with an [id] and an
      optional [x11DesktopNumber]; [workspace.currentDesktop] is kept as
      the identifier of the active desktop.
    - [this.desktopNumberMap] (a JS object keyed by desktop number) is a
      [gmap Z string].
    - Every method is a function from the script state (the fields of the
      class together with the parts of [workspace] it reads or writes) to
      the new state. Log lines have no effect on the state and are left out.
    - The host (KWin) is modelled by explicit events: setting
      [workspace.currentDesktop] to another desktop makes KWin emit
      [currentDesktopChanged], whose handler calls [addToHistory]. *)

From Stdlib Require Import ZArith Lia List String.
From stdpp Require Import base gmap list strings.
Import ListNotations.

Open Scope Z_scope.

(** ** Data model *)

(** A KWin virtual desktop as the script reads it. *)
Record desktop := mkDesktop {
  id : string;
  x11DesktopNumber : option Z
}.

(** The state the script reads and writes: [workspace.desktops],
    [workspace.currentDesktop] and the fields set by the constructor. *)
Record state := mkState {
  desktops : list desktop;
  currentDesktop : string;
  desktopNumberMap : gmap Z string;
  desktopHistory : list string;
  historyIndex : Z;
  continuationDelay : Z;
  lastTriggerTime : Z;
  navigationBuffer : option string
}.

Definition set_currentDesktop (s : state) (c : string) : state :=
  mkState (desktops s) c (desktopNumberMap s) (desktopHistory s)
    (historyIndex s) (continuationDelay s) (lastTriggerTime s)
    (navigationBuffer s).

Definition set_desktopNumberMap (s : state) (m : gmap Z string) : state :=
  mkState (desktops s) (currentDesktop s) m (desktopHistory s)
    (historyIndex s) (continuationDelay s) (lastTriggerTime s)
    (navigationBuffer s).

Definition set_desktopHistory (s : state) (h : list string) : state :=
  mkState (desktops s) (currentDesktop s) (desktopNumberMap s) h
    (historyIndex s) (continuationDelay s) (lastTriggerTime s)
    (navigationBuffer s).

Definition set_historyIndex (s : state) (i : Z) : state :=
  mkState (desktops s) (currentDesktop s) (desktopNumberMap s)
    (desktopHistory s) i (continuationDelay s) (lastTriggerTime s)
    (navigationBuffer s).

Definition set_lastTriggerTime (s : state) (t : Z) : state :=
  mkState (desktops s) (currentDesktop s) (desktopNumberMap s)
    (desktopHistory s) (historyIndex s) (continuationDelay s) t
    (navigationBuffer s).

Definition set_navigationBuffer (s : state) (b : option string) : state :=
  mkState (desktops s) (currentDesktop s) (desktopNumberMap s)
    (desktopHistory s) (historyIndex s) (continuationDelay s)
    (lastTriggerTime s) b.

(** The host replaces [workspace.desktops] (before it emits
    [desktopsChanged]). *)
Definition set_desktops (s : state) (ds : list desktop) : state :=
  mkState ds (currentDesktop s) (desktopNumberMap s) (desktopHistory s)
    (historyIndex s) (continuationDelay s) (lastTriggerTime s)
    (navigationBuffer s).

(** ** Methods of [LastUsedDesktops] *)

(** [desktop.x11DesktopNumber || i + 1]: a missing or zero number is
    falsy and falls back to the 1-based position. *)
Definition desktopNumberOf (d : desktop) (i : Z) : Z :=
  match x11DesktopNumber d with
  | Some n => if Z.eqb n 0 then i + 1 else n
  | None => i + 1
  end.

(** The loop of [buildDesktopNumberMap], from position [i] on. *)
Fixpoint buildMapFrom (i : Z) (ds : list desktop) (m : gmap Z string)
  : gmap Z string :=
  match ds with
  | [] => m
  | d :: ds' => buildMapFrom (i + 1) ds' (<[desktopNumberOf d i := id d]> m)
  end.

(** [buildDesktopNumberMap()]: [this.desktopNumberMap = {}] then the loop. *)
Definition buildDesktopNumberMap (s : state) : state :=
  set_desktopNumberMap s (buildMapFrom 0 (desktops s) ∅).

(** [desktopExists(desktopId)]: [workspace.desktops.some(desktop =>
    desktop && desktop.id === desktopId)]. A [null] identifier matches no
    desktop (desktop ids are strings). *)
Definition desktopExists (s : state) (desktopId : option string) : bool :=
  match desktopId with
  | None => false
  | Some i => existsb (fun d => String.eqb (id d) i) (desktops s)
  end.

(** [navigateToDesktop(desktopId)]: [workspace.desktops.find(...)]; when no
    desktop matches, only a log line; otherwise
    [workspace.currentDesktop = targetDesktop]. *)
Definition navigateToDesktop (s : state) (desktopId : option string) : state :=
  match desktopId with
  | None => s
  | Some i =>
      match find (fun d => String.eqb (id d) i) (desktops s) with
      | None => s
      | Some d => set_currentDesktop s (id d)
      end
  end.

(** [indexOf] followed by [splice(existingIndex, 1)]: drop the first
    occurrence. *)
Fixpoint removeFirst (x : string) (l : list string) : list string :=
  match l with
  | [] => []
  | y :: l' => if String.eqb y x then l' else y :: removeFirst x l'
  end.

(** [addToHistory(desktopId)]. *)
Definition addToHistory (s : state) (desktopId : string) : state :=
  set_desktopHistory s (removeFirst desktopId (desktopHistory s) ++ [desktopId]).

(** [cleanupHistory()]: keep the identifiers of existing desktops. *)
Definition cleanupHistory (s : state) : state :=
  set_desktopHistory s
    (List.filter (fun d => desktopExists s (Some d)) (desktopHistory s)).

(** [isContinuation()] with [Date.now()] passed as [now]: returns the flag
    and the state with [lastTriggerTime = now]. *)
Definition isContinuation (s : state) (now : Z) : bool * state :=
  (Z.ltb (now - lastTriggerTime s) (continuationDelay s),
   set_lastTriggerTime s now).

(** [getDesktopFromHistory(index)]. *)
Definition getDesktopFromHistory (h : list string) (index : Z) : option string :=
  if Z.ltb (Z.of_nat (length h)) (index + 1) then None
  else
    let hi := Z.of_nat (length h) - 1 - index in
    if Z.ltb hi 0 then None else nth_error h (Z.to_nat hi).

(** [this.desktopHistory[this.desktopHistory.length - 1]], [undefined] for
    an empty history. *)
Fixpoint lastEntry (h : list string) : option string :=
  match h with
  | [] => None
  | [x] => Some x
  | _ :: h' => lastEntry h'
  end.

(** [commitNavigationBuffer()]. *)
Definition commitNavigationBuffer (s : state) : state :=
  let s1 :=
    match navigationBuffer s with
    | Some b =>
        let s0 :=
          match lastEntry (desktopHistory s) with
          | Some l => if String.eqb l b then s else addToHistory s b
          | None => addToHistory s b
          end in
        set_navigationBuffer s0 None
    | None => s
    end in
  set_historyIndex s1 0.

(** [getNextHistoryDesktop(_)]: [this.historyIndex++] then the lookup. *)
Definition getNextHistoryDesktop (s : state) : option string * state :=
  let s1 := set_historyIndex s (historyIndex s + 1) in
  (getDesktopFromHistory (desktopHistory s1) (historyIndex s1), s1).

(** [handleHistoryNavigation()] with [Date.now()] passed as [now]. *)
Definition handleHistoryNavigation (s : state) (now : Z) : state :=
  let currentDesktopId := currentDesktop s in
  let s1 := cleanupHistory s in
  let '(isContinuing, s2) := isContinuation s1 now in
  let '(targetDesktopId, s3) :=
    if isContinuing then getNextHistoryDesktop s2
    else
      let s4 := commitNavigationBuffer s2 in
      let s5 :=
        if existsb (String.eqb currentDesktopId) (desktopHistory s4) then s4
        else addToHistory s4 currentDesktopId in
      let s6 := set_historyIndex s5 1 in
      (getDesktopFromHistory (desktopHistory s6) (historyIndex s6), s6) in
  if desktopExists s3 targetDesktopId then
    set_navigationBuffer (navigateToDesktop s3 targetDesktopId) targetDesktopId
  else s3.

(** The backward search of the toggle branch of
    [handleDirectDesktopNavigation]: the most recent history entry that is
    not the current desktop and still exists. *)
Fixpoint findPrevious (s : state) (cur : string) (rh : list string)
  : option string :=
  match rh with
  | [] => None
  | d :: rh' =>
      if negb (String.eqb d cur) && desktopExists s (Some d) then Some d
      else findPrevious s cur rh'
  end.

(** [handleDirectDesktopNavigation(desktopNumber)]. An empty identifier is
    falsy in JS, as is a missing entry. *)
Definition handleDirectDesktopNavigation (s : state) (desktopNumber : Z) : state :=
  match desktopNumberMap s !! desktopNumber with
  | None => s
  | Some targetDesktopId =>
      if String.eqb targetDesktopId "" then s
      else if negb (desktopExists s (Some targetDesktopId)) then
        buildDesktopNumberMap s
      else
        let currentDesktopId := currentDesktop s in
        if String.eqb currentDesktopId targetDesktopId then
          match findPrevious s currentDesktopId (rev (desktopHistory s)) with
          | Some p =>
              if String.eqb p "" then s else navigateToDesktop s (Some p)
          | None => s
          end
        else navigateToDesktop s (Some targetDesktopId)
  end.

(** ** Host events and the constructor *)

(** [workspace.currentDesktopChanged] handler. *)
Definition onCurrentDesktopChanged (s : state) (desktopId : string) : state :=
  addToHistory s desktopId.

(** [workspace.desktopsChanged] handler. *)
Definition onDesktopsChanged (s : state) : state :=
  cleanupHistory (buildDesktopNumberMap s).

(** KWin emits [currentDesktopChanged] when a handler actually changed the
    active desktop: [confirm before after] delivers that event. *)
Definition confirm (before after : state) : state :=
  if String.eqb (currentDesktop before) (currentDesktop after) then after
  else onCurrentDesktopChanged after (currentDesktop after).

(** A previous-desktop press at time [now], followed by KWin's
    confirmation of the switch it issued. *)
Definition pressPrevious (s : state) (now : Z) : state :=
  confirm s (handleHistoryNavigation s now).

(** A toggle press for [n], followed by KWin's confirmation. *)
Definition pressToggle (s : state) (n : Z) : state :=
  confirm s (handleDirectDesktopNavigation s n).

(** The user switches desktop by other means (KWin's own shortcuts). *)
Definition switchDirectly (s : state) (d : string) : state :=
  onCurrentDesktopChanged (set_currentDesktop s d) d.

(** [constructor()]: the history holds the active desktop, the index, the
    timer and the buffer are reset, the desktop number map is built. Shortcut
    and signal registration have no effect on this state. *)
Definition init (ds : list desktop) (cur : string) : state :=
  buildDesktopNumberMap (mkState ds cur ∅ [cur] 0 500 0 None).

(** The shortcuts [registerShortcuts()] registers: "Meta+Tab" for
    [handleHistoryNavigation], then "Go to Desktop i" for
    [handleDirectDesktopNavigation(i)]. *)
Inductive shortcut :=
| PreviousDesktop
| GoToDesktop (i : Z).

(** [registerShortcuts()] with [workspace.desktops.length = n]: the loop runs
    [i] from 1 to [Math.max(20, n)]. *)
Definition registerShortcuts (n : nat) : list shortcut :=
  PreviousDesktop :: map (fun i => GoToDesktop (Z.of_nat i)) (seq 1 (Nat.max 20 n)).

(** ** Helper definitions for statements *)

(** A sequence of [currentDesktopChanged] notifications. *)
Definition recordVisits (s : state) (ids : list string) : state :=
  fold_left onCurrentDesktopChanged ids s.

(** The user visits the desktops [ids] in turn by other means. *)
Definition recordVisitsOn (s : state) (ids : list string) : state :=
  fold_left switchDirectly ids s.

(** Every identifier of [h] names a desktop of [s]. *)
Definition allExist (s : state) (h : list string) : Prop :=
  Forall (fun x => desktopExists s (Some x) = true) h.

(** Previous-desktop presses at the times [ts], each confirmed by KWin. *)
Fixpoint pressAll (s : state) (ts : list Z) : state :=
  match ts with
  | [] => s
  | t :: ts' => pressAll (pressPrevious s t) ts'
  end.



(** ** Concrete configurations *)

Definition ds4 : list desktop :=
  [mkDesktop "d1" (Some 1); mkDesktop "d2" (Some 2);
   mkDesktop "d3" (Some 3); mkDesktop "d4" (Some 4)].

(** Two desktops without a usable X11 number: one reports none, one 0. *)
Definition hintless2 : list desktop :=
  [mkDesktop "x" None; mkDesktop "y" (Some 0)].

(** Started on d1, then d2, d3 and d4 visited: History = [d1; d2; d3; d4]. *)
Definition visited4 : state :=
  recordVisitsOn (init ds4 "d1") ["d2"; "d3"; "d4"].

(** From [visited4], a previous press at 1000 previews d3, then the user
    switches back to d4 by other means: History is again [d1; d2; d3; d4]
    with d4 active, but the buffer still holds d3. *)
Definition staleBuffer4 : state :=
  switchDirectly (pressPrevious visited4 1000) "d4".

(** The host replaces the desktop set, then emits [desktopsChanged]. *)
Definition desktopSetChange (s : state) (ds : list desktop) : state :=
  onDesktopsChanged (set_desktops s ds).

(** States reachable from start-up through the events the script sees.
    KWin only activates existing desktops; when it removes the active
    desktop it activates another one first ([reach_visit]), so the active
    desktop belongs to every new desktop set. *)
Inductive reachable : state -> Prop :=
| reach_init (ds : list desktop) (cur : string) :
    In cur (map id ds) -> reachable (init ds cur)
| reach_visit (s : state) (d : string) :
    reachable s -> In d (map id (desktops s)) -> reachable (switchDirectly s d)
| reach_previous (s : state) (t : Z) :
    reachable s -> reachable (pressPrevious s t)
| reach_toggle (s : state) (n : Z) :
    reachable s -> reachable (pressToggle s n)
| reach_desktops (s : state) (ds : list desktop) :
    reachable s -> In (currentDesktop s) (map id ds) ->
    reachable (desktopSetChange s ds).

(** ** Basic lemmas *)

Lemma removeFirst_notin (x : string) (l : list string) :
  ~ In x l -> removeFirst x l = l.
Proof.
  induction l as [|y l IH]; simpl; intros Hn; [done|].
  destruct (String.eqb_spec y x); [subst; tauto|].
  rewrite IH; tauto.
Qed.

Lemma removeFirst_app_notin (x : string) (p q : list string) :
  ~ In x p -> removeFirst x (p ++ x :: q) = p ++ q.
Proof.
  induction p as [|y p IH]; simpl; intros Hn.
  - by rewrite String.eqb_refl.
  - destruct (String.eqb_spec y x); [subst; tauto|].
    rewrite IH; tauto.
Qed.

Lemma removeFirst_NoDup_filter (x : string) (l : list string) :
  NoDup l -> removeFirst x l = List.filter (fun y => negb (String.eqb y x)) l.
Proof.
  induction l as [|y l IH]; simpl; intros Hnd; [done|].
  inversion Hnd as [|? ? Hy Hl]; subst.
  destruct (String.eqb_spec y x) as [->|Hne]; simpl.
  - symmetry. apply forallb_filter_id, forallb_forall.
    intros z Hz. destruct (String.eqb_spec z x); subst; [|done].
    exfalso; apply Hy, list_elem_of_In, Hz.
  - by rewrite IH.
Qed.

Lemma In_removeFirst (x y : string) (l : list string) :
  In y (removeFirst x l) -> In y l.
Proof.
  induction l as [|z l IH]; simpl; [done|].
  destruct (String.eqb z x); simpl; intuition.
Qed.

Lemma NoDup_removeFirst (x : string) (l : list string) :
  NoDup l -> NoDup (removeFirst x l).
Proof.
  induction l as [|z l IH]; simpl; intros Hnd; [constructor|].
  inversion Hnd as [|? ? Hz Hl]; subst.
  destruct (String.eqb z x); [done|].
  constructor; [|by apply IH].
  intros Hin; apply Hz, list_elem_of_In.
  apply list_elem_of_In in Hin; eapply In_removeFirst; eauto.
Qed.

Lemma removeFirst_NoDup_notin (x : string) (l : list string) :
  NoDup l -> ~ In x (removeFirst x l).
Proof.
  intros Hnd Hin. rewrite removeFirst_NoDup_filter in Hin by done.
  apply filter_In in Hin as [_ Hb].
  rewrite String.eqb_refl in Hb. discriminate.
Qed.

Lemma NoDup_snoc_removeFirst (x : string) (l : list string) :
  NoDup l -> NoDup (removeFirst x l ++ [x]).
Proof.
  intros Hnd. apply NoDup_app. split; [by apply NoDup_removeFirst|].
  split; [|apply NoDup_singleton].
  intros y Hy Hy'. apply list_elem_of_singleton in Hy'; subst.
  apply list_elem_of_In in Hy. exact (removeFirst_NoDup_notin x l Hnd Hy).
Qed.

Lemma NoDup_addToHistory (s : state) (d : string) :
  NoDup (desktopHistory s) -> NoDup (desktopHistory (addToHistory s d)).
Proof. apply NoDup_snoc_removeFirst. Qed.

Lemma NoDup_recordVisits (s : state) (ids : list string) :
  NoDup (desktopHistory s) -> NoDup (desktopHistory (recordVisits s ids)).
Proof.
  revert s; induction ids as [|d ids IH]; simpl; intros s Hnd; [done|].
  apply IH, NoDup_addToHistory, Hnd.
Qed.

(** ** Lemmas on desktops and navigation *)

Lemma set_desktopHistory_same (s : state) :
  set_desktopHistory s (desktopHistory s) = s.
Proof. by destruct s. Qed.

Lemma filter_all_true (f : string -> bool) (l : list string) :
  Forall (fun x => f x = true) l -> List.filter f l = l.
Proof.
  induction 1 as [|x l Hx _ IH]; simpl; [done|]. by rewrite Hx, IH.
Qed.

Lemma cleanupHistory_noop (s : state) :
  allExist s (desktopHistory s) -> cleanupHistory s = s.
Proof.
  intros Hall. unfold cleanupHistory.
  rewrite filter_all_true by exact Hall. apply set_desktopHistory_same.
Qed.

Lemma navigateToDesktop_exists (s : state) (x : string) :
  desktopExists s (Some x) = true ->
  navigateToDesktop s (Some x) = set_currentDesktop s x.
Proof.
  unfold desktopExists, navigateToDesktop. intros Hex.
  destruct (find (fun d => String.eqb (id d) x) (desktops s)) as [d|] eqn:Hf.
  - apply find_some in Hf as [_ Hd]. apply String.eqb_eq in Hd. by rewrite Hd.
  - apply existsb_exists in Hex as [d [Hin Hd]].
    pose proof (find_none _ _ Hf d Hin) as Hc. congruence.
Qed.

Lemma allExist_app (s : state) (l1 l2 : list string) :
  allExist s (l1 ++ l2) <-> allExist s l1 /\ allExist s l2.
Proof. unfold allExist. by rewrite Forall_app. Qed.

Lemma NoDup_middle_notin (p q : list string) (z : string) :
  NoDup (p ++ z :: q) -> ~ In z p /\ ~ In z q.
Proof.
  intros Hnd. apply NoDup_app in Hnd as [_ [Hd Hq]].
  inversion Hq as [|? ? Hzq _]; subst. split.
  - intros Hin. apply (Hd z); [by apply list_elem_of_In|].
    apply list_elem_of_here.
  - intros Hin. apply Hzq, list_elem_of_In, Hin.
Qed.

Lemma nth_error_middle (p q : list string) (z : string) :
  nth_error (p ++ z :: q) (length p) = Some z.
Proof. induction p; simpl; auto. Qed.

Lemma lastEntry_snoc (h : list string) (x : string) :
  lastEntry (h ++ [x]) = Some x.
Proof.
  induction h as [|y h IH]; simpl; [done|].
  destruct (h ++ [x]) eqn:E; [destruct h; discriminate|]. exact IH.
Qed.

Lemma existsb_eqb_In (x : string) (l : list string) :
  existsb (String.eqb x) l = true <-> In x l.
Proof.
  rewrite existsb_exists. split.
  - intros [y [Hy Heq]]. apply String.eqb_eq in Heq. by subst.
  - intros Hin. exists x. by rewrite String.eqb_refl.
Qed.

(** ** Steps of a walk through the history *)
Lemma getDesktopFromHistory_middle (p q : list string) (z : string) :
  getDesktopFromHistory (p ++ z :: q) (Z.of_nat (length q)) = Some z.
Proof.
  unfold getDesktopFromHistory. rewrite length_app. simpl.
  destruct (Z.ltb_spec (Z.of_nat (length p + S (length q))) (Z.of_nat (length q) + 1)); [lia|].
  destruct (Z.ltb_spec (Z.of_nat (length p + S (length q)) - 1 - Z.of_nat (length q)) 0); [lia|].
  replace (Z.to_nat (Z.of_nat (length p + S (length q)) - 1 - Z.of_nat (length q))) with (length p) by lia.
  apply nth_error_middle.
Qed.

Lemma continue_step (s : state) (p q : list string) (z : string) (now : Z) :
  desktopHistory s = p ++ z :: q ->
  NoDup (p ++ z :: q) ->
  allExist s (p ++ z :: q) ->
  In (currentDesktop s) q ->
  historyIndex s = Z.of_nat (length q) - 1 ->
  now - lastTriggerTime s < continuationDelay s ->
  pressPrevious s now =
    mkState (desktops s) z (desktopNumberMap s) (p ++ q ++ [z])
      (Z.of_nat (length q)) (continuationDelay s) now (Some z).
Proof.
  intros Hh Hnd Hall Hcur Hidx Ht.
  pose proof (NoDup_middle_notin p q z Hnd) as [Hzp Hzq].
  unfold pressPrevious, handleHistoryNavigation.
  rewrite cleanupHistory_noop by (rewrite Hh; exact Hall).
  unfold isContinuation. destruct (Z.ltb_spec (now - lastTriggerTime s) (continuationDelay s)); [|lia].
  unfold getNextHistoryDesktop. cbn [desktopHistory historyIndex set_historyIndex set_lastTriggerTime].
  rewrite Hh, Hidx. replace (Z.of_nat (length q) - 1 + 1) with (Z.of_nat (length q)) by lia.
  rewrite getDesktopFromHistory_middle.
  assert (Hz : desktopExists s (Some z) = true).
  { apply allExist_app in Hall as [_ Hall]. by inversion Hall. }
  replace (desktopExists _ (Some z)) with true by (symmetry; exact Hz).
  rewrite navigateToDesktop_exists by exact Hz.
  unfold confirm. cbn.
  destruct (String.eqb_spec (currentDesktop s) z); [subst; tauto|].
  unfold onCurrentDesktopChanged, addToHistory. cbn.
  rewrite Hh, removeFirst_app_notin by exact Hzp. unfold set_desktopHistory; cbn. by rewrite <- app_assoc.
Qed.

Lemma continue_end (s : state) (now : Z) :
  allExist s (desktopHistory s) ->
  Z.of_nat (length (desktopHistory s)) <= historyIndex s + 1 ->
  now - lastTriggerTime s < continuationDelay s ->
  pressPrevious s now =
    set_historyIndex (set_lastTriggerTime s now) (historyIndex s + 1).
Proof.
  intros Hall Hlen Ht.
  unfold pressPrevious, handleHistoryNavigation.
  rewrite cleanupHistory_noop by exact Hall.
  unfold isContinuation. destruct (Z.ltb_spec (now - lastTriggerTime s) (continuationDelay s)); [|lia].
  unfold getNextHistoryDesktop. cbn [desktopHistory historyIndex set_historyIndex set_lastTriggerTime].
  unfold getDesktopFromHistory.
  destruct (Z.ltb_spec (Z.of_nat (length (desktopHistory s))) (historyIndex s + 1 + 1)); [|lia].
  unfold confirm. cbn. by rewrite String.eqb_refl.
Qed.

Lemma commitNavigationBuffer_clean (s : state) (h : list string) (x : string) :
  desktopHistory s = h ++ [x] ->
  navigationBuffer s = None \/ navigationBuffer s = Some x ->
  commitNavigationBuffer s = set_historyIndex (set_navigationBuffer s None) 0.
Proof.
  intros Hh Hb. unfold commitNavigationBuffer.
  destruct Hb as [Hb|Hb]; rewrite Hb.
  - by destruct s; simpl in *; subst.
  - rewrite Hh, lastEntry_snoc, String.eqb_refl. done.
Qed.

Lemma fresh_step (s : state) (p : list string) (z x : string) (now : Z) :
  desktopHistory s = p ++ [z; x] ->
  currentDesktop s = x ->
  navigationBuffer s = None \/ navigationBuffer s = Some x ->
  NoDup (p ++ [z; x]) ->
  allExist s (p ++ [z; x]) ->
  continuationDelay s <= now - lastTriggerTime s ->
  pressPrevious s now =
    mkState (desktops s) z (desktopNumberMap s) (p ++ [x; z]) 1
      (continuationDelay s) now (Some z).
Proof.
  intros Hh Hcur Hb Hnd Hall Ht.
  pose proof (NoDup_middle_notin p [x] z Hnd) as [Hzp Hzq].
  unfold pressPrevious, handleHistoryNavigation.
  rewrite cleanupHistory_noop by (rewrite Hh; exact Hall).
  unfold isContinuation. destruct (Z.ltb_spec (now - lastTriggerTime s) (continuationDelay s)); [lia|].
  rewrite (commitNavigationBuffer_clean _ (p ++ [z]) x); cbn;
    [|rewrite Hh, <- app_assoc; done|exact Hb].
  rewrite Hcur, Hh.
  replace (existsb (String.eqb x) (p ++ [z; x])) with true
    by (symmetry; apply existsb_eqb_In, in_or_app; simpl; tauto).
  cbn. rewrite Hh, (getDesktopFromHistory_middle p [x] z : getDesktopFromHistory (p ++ [z; x]) 1 = Some z).
  assert (Hz : desktopExists s (Some z) = true).
  { apply allExist_app in Hall as [_ Hall]. by inversion Hall. }
  replace (desktopExists _ (Some z)) with true by (symmetry; exact Hz).
  rewrite navigateToDesktop_exists by exact Hz.
  unfold confirm. cbn. rewrite Hcur.
  destruct (String.eqb_spec x z); [subst; simpl in Hzq; tauto|].
  unfold onCurrentDesktopChanged, addToHistory. cbn.
  rewrite Hh, removeFirst_app_notin by exact Hzp. unfold set_desktopHistory; cbn.
  by rewrite <- app_assoc.
Qed.





Lemma NoDup_move_back (a q : list string) (z : string) :
  NoDup (a ++ z :: q) -> NoDup (a ++ q ++ [z]).
Proof.
  intros Hnd. apply NoDup_ListNoDup in Hnd. apply NoDup_ListNoDup.
  eapply Permutation_NoDup; [|exact Hnd].
  apply Permutation_app_head. apply Permutation_cons_append.
Qed.

Lemma allExist_move_back (s : state) (a q : list string) (z : string) :
  allExist s (a ++ z :: q) -> allExist s (a ++ q ++ [z]).
Proof.
  rewrite !allExist_app. intros [Ha Hzq]. inversion Hzq; subst.
  repeat split; try done. unfold allExist. by repeat constructor.
Qed.








(** ** Claims *)


(** Walk-back ordering when no earlier walk target is pending. With
    History [A; B; C; D], D active and the navigation buffer empty or
    holding D, a fresh previous-desktop press switches to C, a
    second press within [continuationDelay] to B, a third to A and a fourth
    stays on A, each switch being confirmed by KWin; D is never reached. *)
Theorem walk_back_ordering (s : state) (A B C D : string) (t1 t2 t3 t4 : Z) :
  desktopHistory s = [A; B; C; D] ->
  currentDesktop s = D ->
  navigationBuffer s = None \/ navigationBuffer s = Some D ->
  NoDup [A; B; C; D] ->
  allExist s [A; B; C; D] ->
  continuationDelay s <= t1 - lastTriggerTime s ->
  t2 - t1 < continuationDelay s ->
  t3 - t2 < continuationDelay s ->
  t4 - t3 < continuationDelay s ->
  currentDesktop (pressAll s [t1]) = C /\
  currentDesktop (pressAll s [t1; t2]) = B /\
  currentDesktop (pressAll s [t1; t2; t3]) = A /\
  currentDesktop (pressAll s [t1; t2; t3; t4]) = A.
Proof.
  intros Hh Hc Hb Hnd Hall H1 H2 H3 H4. simpl pressAll.
  rewrite (fresh_step s [A; B] C D t1); try done.
  pose proof (NoDup_move_back [A; B] [D] C Hnd) as Hnd1.
  pose proof (allExist_move_back s [A; B] [D] C Hall) as Hall1.
  simpl in Hnd1, Hall1.
  rewrite (continue_step _ [A] [D; C] B t2); simpl; try done; try tauto.
  pose proof (NoDup_move_back [A] [D; C] B Hnd1) as Hnd2.
  pose proof (allExist_move_back s [A] [D; C] B Hall1) as Hall2.
  simpl in Hnd2, Hall2.
  rewrite (continue_step _ [] [D; C; B] A t3); simpl; try done; try tauto.
  pose proof (allExist_move_back s [] [D; C; B] A Hall2) as Hall3.
  rewrite continue_end; simpl; try done; lia.
Qed.

(** Witness: started on d1 with d2, d3, d4 visited
    and four presses 200 ms apart. *)
Lemma walk_back_ordering_witness :
  currentDesktop (pressAll visited4 [1000]) = "d3" /\
  currentDesktop (pressAll visited4 [1000; 1200]) = "d2" /\
  currentDesktop (pressAll visited4 [1000; 1200; 1400]) = "d1" /\
  currentDesktop (pressAll visited4 [1000; 1200; 1400; 1600]) = "d1".
Proof.
  apply (walk_back_ordering visited4 "d1" "d2" "d3" "d4" 1000 1200 1400 1600).
  - vm_compute. reflexivity.
  - vm_compute. reflexivity.
  - left. vm_compute. reflexivity.
  - apply NoDup_ListNoDup. vm_compute.
    repeat constructor; simpl; intuition discriminate.
  - unfold allExist. repeat constructor.
  - vm_compute. discriminate.
  - vm_compute. reflexivity.
  - vm_compute. reflexivity.
  - vm_compute. reflexivity.
Defined.

(** C1 (failing input): History is [d1; d2; d3; d4] with d4 active, but
    the buffer still holds d3 from an earlier walk that the user left by
    switching to d4 directly. A fresh press (4 s after the last one)
    commits d3 to the back of the history, so index 1 is d4 itself: the
    press stays on d4 instead of switching to d3. *)
Lemma walk_back_stale_buffer_lands_on_current :
  desktopHistory staleBuffer4 = ["d1"; "d2"; "d3"; "d4"] /\
  currentDesktop staleBuffer4 = "d4" /\
  continuationDelay staleBuffer4 <= 5000 - lastTriggerTime staleBuffer4 /\
  currentDesktop (pressPrevious staleBuffer4 5000) = "d4".
Proof.
  split; [vm_compute; reflexivity|].
  split; [vm_compute; reflexivity|].
  split; [vm_compute; discriminate|].
  vm_compute. reflexivity.
Qed.


(** C3: no duplicates. Starting from the single-entry history of [init],
    any sequence of [currentDesktopChanged] notifications leaves a history
    without repeated identifier, and each [addToHistory id] removes every
    earlier occurrence of [id] and appends [id] at the back. *)
Theorem history_no_duplicates (ds : list desktop) (cur : string)
    (ids : list string) (d : string) :
  NoDup (desktopHistory (recordVisits (init ds cur) ids)) /\
  desktopHistory (addToHistory (recordVisits (init ds cur) ids) d) =
    List.filter (fun y => negb (String.eqb y d))
      (desktopHistory (recordVisits (init ds cur) ids)) ++ [d].
Proof.
  assert (Hnd : NoDup (desktopHistory (recordVisits (init ds cur) ids))).
  { apply NoDup_recordVisits. apply NoDup_singleton. }
  split; [exact Hnd|].
  unfold addToHistory. cbn [desktopHistory set_desktopHistory].
  by rewrite removeFirst_NoDup_filter.
Qed.

(** C7: a toggle shortcut for a desktop number with no entry in
    [desktopNumberMap] changes nothing (only a log line is written), and
    since the active desktop does not change KWin sends no notification. *)
Theorem unknown_slot_noop (s : state) (n : Z) :
  desktopNumberMap s !! n = None ->
  handleDirectDesktopNavigation s n = s /\ pressToggle s n = s.
Proof.
  intros Hn. unfold pressToggle, handleDirectDesktopNavigation.
  rewrite Hn. split; [done|]. unfold confirm. by rewrite String.eqb_refl.
Qed.

(** Witness: desktop number 7 is not mapped with four desktops. *)
Lemma unknown_slot_noop_witness :
  handleDirectDesktopNavigation visited4 7 = visited4 /\
  pressToggle visited4 7 = visited4.
Proof. apply unknown_slot_noop. vm_compute. reflexivity. Defined.

(** C10: [navigateToDesktop] with an identifier of no current desktop
    (also [null]) leaves the whole state unchanged. *)
Theorem navigate_missing_noop (s : state) (desktopId : option string) :
  desktopExists s desktopId = false ->
  navigateToDesktop s desktopId = s.
Proof.
  unfold desktopExists, navigateToDesktop. intros Hex.
  destruct desktopId as [i|]; [|done].
  destruct (find (fun d => String.eqb (id d) i) (desktops s)) as [d|] eqn:Hf;
    [|done].
  pose proof (find_some _ _ Hf) as [Hin Hd].
  assert (existsb (fun d => String.eqb (id d) i) (desktops s) = true)
    by (apply existsb_exists; eauto).
  congruence.
Qed.

(** Witness: "d9" is not a desktop of [visited4]. *)
Lemma navigate_missing_noop_witness :
  navigateToDesktop visited4 (Some "d9") = visited4.
Proof. apply navigate_missing_noop. vm_compute. reflexivity. Defined.

(** ** Toggle steps *)

Lemma toggle_away (s : state) (pre : list string) (z a : string) (n : Z) :
  desktopHistory s = pre ++ [z; a] ->
  currentDesktop s = a ->
  NoDup (pre ++ [z; a]) ->
  desktopNumberMap s !! n = Some z ->
  desktopExists s (Some z) = true ->
  z <> "" ->
  pressToggle s n = set_desktopHistory (set_currentDesktop s z) (pre ++ [a; z]).
Proof.
  intros Hh Hc Hnd Hn Hz Hne.
  pose proof (NoDup_middle_notin pre [a] z Hnd) as [Hzp Hza].
  unfold pressToggle, handleDirectDesktopNavigation. rewrite Hn.
  destruct (String.eqb_spec z ""); [done|].
  rewrite Hz. cbn [negb]. rewrite Hc.
  destruct (String.eqb_spec a z) as [->|Haz]; [simpl in Hza; tauto|].
  rewrite navigateToDesktop_exists by exact Hz.
  unfold confirm. cbn. rewrite Hc.
  destruct (String.eqb_spec a z); [done|].
  unfold onCurrentDesktopChanged, addToHistory. cbn. rewrite Hh.
  rewrite removeFirst_app_notin by exact Hzp. by rewrite <- app_assoc.
Qed.

Lemma toggle_back (s : state) (pre : list string) (z a : string) (n : Z) :
  desktopHistory s = pre ++ [a; z] ->
  currentDesktop s = z ->
  NoDup (pre ++ [a; z]) ->
  desktopNumberMap s !! n = Some z ->
  desktopExists s (Some z) = true ->
  desktopExists s (Some a) = true ->
  z <> "" -> a <> "" ->
  pressToggle s n = set_desktopHistory (set_currentDesktop s a) (pre ++ [z; a]).
Proof.
  intros Hh Hc Hnd Hn Hz Ha Hnez Hnea.
  pose proof (NoDup_middle_notin pre [z] a Hnd) as [Hap Haz].
  unfold pressToggle, handleDirectDesktopNavigation. rewrite Hn.
  destruct (String.eqb_spec z ""); [done|].
  rewrite Hz. cbn [negb]. rewrite Hc, String.eqb_refl, Hh, rev_app_distr.
  cbn [rev app findPrevious]. rewrite String.eqb_refl. cbn [negb andb].
  destruct (String.eqb_spec a z) as [->|Hne]; [simpl in Haz; tauto|].
  cbn [negb andb]. rewrite Ha.
  destruct (String.eqb_spec a ""); [done|].
  rewrite navigateToDesktop_exists by exact Ha.
  unfold confirm. cbn. rewrite Hc.
  destruct (String.eqb_spec z a); [congruence|].
  unfold onCurrentDesktopChanged, addToHistory. cbn. rewrite Hh.
  rewrite removeFirst_app_notin by exact Hap. by rewrite <- app_assoc.
Qed.

(** C5: toggle alternation. On A with History ending in [Z; A], Z and A
    distinct existing desktops and desktop number [n] mapped to Z, pressing
    the toggle shortcut of [n] again and again (each switch confirmed by
    KWin, no other desktop visited) lands on Z after an odd number of
    presses and on A after an even number. *)
Theorem toggle_alternates (s : state) (pre : list string) (z a : string)
    (n : Z) (k : nat) :
  desktopHistory s = pre ++ [z; a] ->
  currentDesktop s = a ->
  NoDup (pre ++ [z; a]) ->
  desktopNumberMap s !! n = Some z ->
  desktopExists s (Some z) = true ->
  desktopExists s (Some a) = true ->
  z <> "" -> a <> "" ->
  currentDesktop (Nat.iter k (fun s' => pressToggle s' n) s) =
    if Nat.odd k then z else a.
Proof.
  intros Hh Hc Hnd Hn Hz Ha Hnez Hnea.
  set (s1 := set_desktopHistory (set_currentDesktop s z) (pre ++ [a; z])).
  assert (H1 : pressToggle s n = s1) by (by apply (toggle_away s pre z a n)).
  assert (H2 : pressToggle s1 n = s).
  { rewrite (toggle_back s1 pre z a n); try done.
    - destruct s; simpl in *; by subst.
    - exact (NoDup_move_back pre [a] z Hnd). }
  assert (Hk : forall j, Nat.iter j (fun s' => pressToggle s' n) s =
                         if Nat.odd j then s1 else s).
  { induction j as [|j IH]; [done|].
    rewrite Nat.iter_succ, IH, Nat.odd_succ, <- Nat.negb_odd.
    destruct (Nat.odd j); simpl; congruence. }
  rewrite Hk. destruct (Nat.odd k); [done|exact Hc].
Qed.

(** Witness: on d4 after visiting d1..d4, toggling desktop 3 five times. *)
Lemma toggle_alternates_witness :
  currentDesktop (Nat.iter 5 (fun s' => pressToggle s' 3) visited4) =
    if Nat.odd 5 then "d3" else "d4".
Proof.
  apply (toggle_alternates visited4 ["d1"; "d2"] "d3" "d4" 3 5).
  - vm_compute. reflexivity.
  - vm_compute. reflexivity.
  - apply NoDup_ListNoDup. vm_compute.
    repeat constructor; simpl; intuition discriminate.
  - vm_compute. reflexivity.
  - vm_compute. reflexivity.
  - vm_compute. reflexivity.
  - discriminate.
  - discriminate.
Defined.

(** The toggle handler never touches the walk state. The navigation
    buffer, the history index and the time of the last
    previous-desktop press are the same after a toggle press (with KWin's
    confirmation) as before it, whichever branch the handler takes. *)
Theorem toggle_keeps_walk_state (s : state) (n : Z) :
  navigationBuffer (pressToggle s n) = navigationBuffer s /\
  historyIndex (pressToggle s n) = historyIndex s /\
  lastTriggerTime (pressToggle s n) = lastTriggerTime s.
Proof.
  unfold pressToggle, confirm, handleDirectDesktopNavigation, navigateToDesktop,
    buildDesktopNumberMap, onCurrentDesktopChanged, addToHistory.
  repeat case_match; simpl; auto.
Qed.

(** C6 (failing input): from [visited4] (on d4), a previous press goes to
    d3. Toggling back with the shortcut of d3 returns to d4, and a previous
    press 200 ms later continues the old walk to d2 instead of returning to
    d3. Toggling to d1 instead, a previous press 200 ms later goes to d4
    instead of returning to d3. *)
Lemma toggle_then_previous_continues_walk :
  currentDesktop (pressPrevious visited4 9000) = "d3" /\
  currentDesktop (pressToggle (pressPrevious visited4 9000) 3) = "d4" /\
  currentDesktop (pressPrevious (pressToggle (pressPrevious visited4 9000) 3) 9200)
    = "d2" /\
  currentDesktop (pressToggle (pressPrevious visited4 8000) 1) = "d1" /\
  currentDesktop (pressPrevious (pressToggle (pressPrevious visited4 8000) 1) 8200)
    = "d4".
Proof. repeat split; vm_compute; reflexivity. Qed.

Lemma navigateToDesktop_history (s : state) (d : option string) :
  desktopHistory (navigateToDesktop s d) = desktopHistory s.
Proof. unfold navigateToDesktop. by repeat case_match. Qed.

Lemma NoDup_cleanupHistory (s : state) :
  NoDup (desktopHistory s) -> NoDup (desktopHistory (cleanupHistory s)).
Proof.
  intros Hnd. apply NoDup_ListNoDup. apply NoDup_ListNoDup in Hnd.
  unfold cleanupHistory; cbn. apply List.NoDup_filter, Hnd.
Qed.

Lemma NoDup_commitNavigationBuffer (s : state) :
  NoDup (desktopHistory s) -> NoDup (desktopHistory (commitNavigationBuffer s)).
Proof.
  intros Hnd. unfold commitNavigationBuffer.
  repeat case_match; simpl; try apply NoDup_addToHistory; done.
Qed.

Lemma handleHistoryNavigation_NoDup (s : state) (now : Z) :
  NoDup (desktopHistory s) ->
  NoDup (desktopHistory (handleHistoryNavigation s now)).
Proof.
  intros Hnd. apply NoDup_cleanupHistory in Hnd.
  unfold handleHistoryNavigation, isContinuation, getNextHistoryDesktop.
  set (s1 := cleanupHistory s) in *.
  destruct (Z.ltb _ _); destruct (desktopExists _ _);
    cbn [desktopHistory set_navigationBuffer set_historyIndex set_lastTriggerTime];
    rewrite ?navigateToDesktop_history;
    cbn [desktopHistory set_navigationBuffer set_historyIndex set_lastTriggerTime];
    try exact Hnd.
  all: assert (Hc : NoDup (desktopHistory (commitNavigationBuffer (set_lastTriggerTime s1 now))))
         by (apply NoDup_commitNavigationBuffer; exact Hnd).
  all: destruct (existsb _ _); [exact Hc|apply NoDup_addToHistory, Hc].
Qed.

(** C2 (amended): while a walk previews candidate [c] (the press has just
    issued the switch to [c] and holds it in the navigation buffer), KWin's
    confirming notification for [c] moves [c] to the back of History: its
    earlier occurrence is removed and [c] is appended, so [c] occurs once,
    and the walk state (index and buffer) is untouched. *)
Theorem candidate_confirmation_moves_to_back (s : state) (now : Z) (c : string) :
  NoDup (desktopHistory s) ->
  navigationBuffer (handleHistoryNavigation s now) = Some c ->
  desktopHistory (onCurrentDesktopChanged (handleHistoryNavigation s now) c) =
    List.filter (fun y => negb (String.eqb y c))
      (desktopHistory (handleHistoryNavigation s now)) ++ [c] /\
  NoDup (desktopHistory (onCurrentDesktopChanged (handleHistoryNavigation s now) c)) /\
  historyIndex (onCurrentDesktopChanged (handleHistoryNavigation s now) c) =
    historyIndex (handleHistoryNavigation s now) /\
  navigationBuffer (onCurrentDesktopChanged (handleHistoryNavigation s now) c) =
    Some c.
Proof.
  intros Hnd Hb.
  pose proof (handleHistoryNavigation_NoDup s now Hnd) as Hw.
  split; [|split; [|split]].
  - unfold onCurrentDesktopChanged, addToHistory. cbn.
    by rewrite removeFirst_NoDup_filter.
  - by apply NoDup_addToHistory.
  - reflexivity.
  - exact Hb.
Qed.

(** Witness: the first press from [visited4] previews d3. *)
Lemma candidate_confirmation_moves_to_back_witness :
  desktopHistory (onCurrentDesktopChanged (handleHistoryNavigation visited4 1000) "d3") =
    List.filter (fun y => negb (String.eqb y "d3"))
      (desktopHistory (handleHistoryNavigation visited4 1000)) ++ ["d3"] /\
  NoDup (desktopHistory (onCurrentDesktopChanged (handleHistoryNavigation visited4 1000) "d3")) /\
  historyIndex (onCurrentDesktopChanged (handleHistoryNavigation visited4 1000) "d3") =
    historyIndex (handleHistoryNavigation visited4 1000) /\
  navigationBuffer (onCurrentDesktopChanged (handleHistoryNavigation visited4 1000) "d3") =
    Some "d3".
Proof.
  apply candidate_confirmation_moves_to_back.
  - apply NoDup_ListNoDup. vm_compute.
    repeat constructor; simpl; intuition discriminate.
  - vm_compute. reflexivity.
Defined.

(** C2 (counterexample): the walk from [visited4] previews d3 with History
    [d1; d2; d3; d4]; the confirming notification for d3 turns History into
    [d1; d2; d4; d3]. *)
Lemma candidate_confirmation_reorders :
  navigationBuffer (handleHistoryNavigation visited4 1000) = Some "d3" /\
  desktopHistory (handleHistoryNavigation visited4 1000) = ["d1"; "d2"; "d3"; "d4"] /\
  desktopHistory (onCurrentDesktopChanged (handleHistoryNavigation visited4 1000) "d3") =
    ["d1"; "d2"; "d4"; "d3"].
Proof. repeat split; vm_compute; reflexivity. Qed.

(** ** The history never empties *)

Lemma In_removeFirst_other (x y : string) (l : list string) :
  x <> y -> In x l -> In x (removeFirst y l).
Proof.
  induction l as [|z l IH]; simpl; [done|]. intros Hne Hin.
  destruct (String.eqb_spec z y) as [->|Hzy].
  - destruct Hin as [->|H]; [congruence|exact H].
  - destruct Hin as [->|H]; [by left|right; by apply IH].
Qed.

Lemma In_addToHistory_keep (s : state) (d x : string) :
  In x (desktopHistory s) -> In x (desktopHistory (addToHistory s d)).
Proof.
  intros H. unfold addToHistory; cbn. apply in_or_app.
  destruct (String.eq_dec x d) as [->|Hne];
    [right; by left|left; by apply In_removeFirst_other].
Qed.

Lemma In_addToHistory_self (s : state) (d : string) :
  In d (desktopHistory (addToHistory s d)).
Proof. unfold addToHistory; cbn. apply in_or_app. right; by left. Qed.

Lemma desktopExists_In (s : state) (d : string) :
  desktopExists s (Some d) = true <-> In d (map id (desktops s)).
Proof.
  unfold desktopExists. rewrite existsb_exists, in_map_iff. split.
  - intros [e [Hin Heq]]. apply String.eqb_eq in Heq. by exists e.
  - intros [e [Heq Hin]]. exists e. split; [done|]. by apply String.eqb_eq.
Qed.

Lemma navigateToDesktop_current (s : state) (d : option string) :
  desktopExists s (Some (currentDesktop s)) = true ->
  desktopExists (navigateToDesktop s d)
    (Some (currentDesktop (navigateToDesktop s d))) = true /\
  desktops (navigateToDesktop s d) = desktops s.
Proof.
  intros Hc. unfold navigateToDesktop.
  destruct d as [i|]; [|done].
  destruct (find _ _) as [e|] eqn:Hf; [|done]. split; [|done].
  apply find_some in Hf as [Hin _].
  apply desktopExists_In; cbn. by apply in_map.
Qed.

Lemma cleanupHistory_keep (s : state) :
  In (currentDesktop s) (desktopHistory s) ->
  desktopExists s (Some (currentDesktop s)) = true ->
  In (currentDesktop s) (desktopHistory (cleanupHistory s)).
Proof. intros Hin Hex. unfold cleanupHistory; cbn. by apply filter_In. Qed.

Lemma commitNavigationBuffer_keep (s : state) (x : string) :
  In x (desktopHistory s) ->
  In x (desktopHistory (commitNavigationBuffer s)) /\
  desktops (commitNavigationBuffer s) = desktops s /\
  currentDesktop (commitNavigationBuffer s) = currentDesktop s.
Proof.
  intros Hin. unfold commitNavigationBuffer.
  repeat case_match; cbn; rewrite ?Hin; try done;
    (split; [by apply In_addToHistory_keep|done]).
Qed.

Lemma navigation_finish_keep (s : state) (t : option string) (x : string)
  (ds : list desktop) :
  desktops s = ds ->
  In x (desktopHistory s) ->
  desktopExists s (Some (currentDesktop s)) = true ->
  let s' := if desktopExists s t
            then set_navigationBuffer (navigateToDesktop s t) t else s in
  In x (desktopHistory s') /\
  desktopExists s' (Some (currentDesktop s')) = true /\
  desktops s' = ds.
Proof.
  intros <- Hin Hex s'. subst s'. destruct (desktopExists s t); [|done].
  destruct (navigateToDesktop_current s t Hex) as [H1 H2].
  unfold desktopExists in *. cbn. rewrite navigateToDesktop_history, H2.
  rewrite H2 in H1. done.
Qed.

Lemma handleHistoryNavigation_keep (s : state) (now : Z) :
  In (currentDesktop s) (desktopHistory s) ->
  desktopExists s (Some (currentDesktop s)) = true ->
  In (currentDesktop s) (desktopHistory (handleHistoryNavigation s now)) /\
  desktopExists (handleHistoryNavigation s now)
    (Some (currentDesktop (handleHistoryNavigation s now))) = true /\
  desktops (handleHistoryNavigation s now) = desktops s.
Proof.
  intros Hin Hex. pose proof (cleanupHistory_keep s Hin Hex) as Hc.
  unfold handleHistoryNavigation, isContinuation, getNextHistoryDesktop.
  set (s1 := cleanupHistory s) in *.
  destruct (Z.ltb _ _); cbn zeta iota beta.
  - apply navigation_finish_keep; [reflexivity|exact Hc|].
    unfold desktopExists in *. exact Hex.
  - destruct (commitNavigationBuffer_keep (set_lastTriggerTime s1 now)
                (currentDesktop s) Hc) as [Hk [Hd Hcur]].
    set (s4 := commitNavigationBuffer (set_lastTriggerTime s1 now)) in *.
    assert (Hd' : desktops s4 = desktops s) by (rewrite Hd; reflexivity).
    assert (Hcur' : currentDesktop s4 = currentDesktop s)
      by (rewrite Hcur; reflexivity).
    clearbody s4. clear Hd Hcur.
    destruct (existsb (String.eqb (currentDesktop s)) (desktopHistory s4)) eqn:E.
    + apply navigation_finish_keep; cbn; [exact Hd'|exact Hk|].
      unfold desktopExists in *. cbn. rewrite Hd', Hcur'. exact Hex.
    + apply navigation_finish_keep; cbn; [exact Hd'|apply In_addToHistory_self|].
      unfold desktopExists in *. cbn. rewrite Hd', Hcur'. exact Hex.
Qed.

Lemma navigateToDesktop_keep (s : state) (d : option string) :
  desktopExists s (Some (currentDesktop s)) = true ->
  desktopHistory (navigateToDesktop s d) = desktopHistory s /\
  desktopExists (navigateToDesktop s d)
    (Some (currentDesktop (navigateToDesktop s d))) = true /\
  desktops (navigateToDesktop s d) = desktops s.
Proof.
  intros Hex. destruct (navigateToDesktop_current s d Hex) as [H1 H2].
  by rewrite navigateToDesktop_history.
Qed.

Lemma handleDirectDesktopNavigation_keep (s : state) (n : Z) :
  desktopExists s (Some (currentDesktop s)) = true ->
  desktopHistory (handleDirectDesktopNavigation s n) = desktopHistory s /\
  desktopExists (handleDirectDesktopNavigation s n)
    (Some (currentDesktop (handleDirectDesktopNavigation s n))) = true /\
  desktops (handleDirectDesktopNavigation s n) = desktops s.
Proof.
  intros Hex. unfold handleDirectDesktopNavigation.
  repeat case_match; try apply navigateToDesktop_keep; try exact Hex;
    try done; unfold buildDesktopNumberMap, desktopExists in *; cbn; done.
Qed.

Lemma confirm_keep (before after : state) :
  In (currentDesktop before) (desktopHistory after) ->
  desktopExists after (Some (currentDesktop after)) = true ->
  In (currentDesktop (confirm before after))
     (desktopHistory (confirm before after)) /\
  desktopExists (confirm before after)
    (Some (currentDesktop (confirm before after))) = true.
Proof.
  intros Hin Hex. unfold confirm.
  destruct (String.eqb_spec (currentDesktop before) (currentDesktop after)) as [E|E].
  - rewrite <- E. by rewrite E in Hin |- *.
  - unfold onCurrentDesktopChanged. split; [apply In_addToHistory_self|].
    unfold desktopExists in *; cbn; exact Hex.
Qed.

Lemma reachable_current_in_history (s : state) :
  reachable s ->
  In (currentDesktop s) (desktopHistory s) /\
  desktopExists s (Some (currentDesktop s)) = true.
Proof.
  induction 1 as [ds cur Hcur|s d _ [Hin Hex] Hd|s t _ [Hin Hex]
                  |s n _ [Hin Hex]|s ds _ [Hin Hex] Hds].
  - split; [by left|]. by apply desktopExists_In.
  - unfold switchDirectly, onCurrentDesktopChanged.
    split; [apply In_addToHistory_self|]. by apply desktopExists_In.
  - destruct (handleHistoryNavigation_keep s t Hin Hex) as [H1 [H2 _]].
    by apply confirm_keep.
  - destruct (handleDirectDesktopNavigation_keep s n Hex) as [H1 [H2 _]].
    apply confirm_keep; [rewrite H1; exact Hin|exact H2].
  - split.
    + unfold desktopSetChange, onDesktopsChanged, cleanupHistory; cbn.
      apply filter_In. split; [exact Hin|].
      apply (desktopExists_In (set_desktops s ds)). exact Hds.
    + apply (desktopExists_In (desktopSetChange s ds)). exact Hds.
Qed.

(** C4 (amended): in every reachable state History holds the active desktop,
    so it is never empty; a desktop-set change does not reset History to
    one entry: it keeps, in order, the entries that name desktops of the
    new set, and the result is again non-empty. *)
Theorem history_never_empty (s : state) :
  reachable s ->
  desktopHistory s <> [] /\
  In (currentDesktop s) (desktopHistory s) /\
  (forall ds : list desktop,
     In (currentDesktop s) (map id ds) ->
     desktopHistory (desktopSetChange s ds) =
       List.filter (fun d => existsb (fun e => String.eqb (id e) d) ds)
         (desktopHistory s) /\
     desktopHistory (desktopSetChange s ds) <> []).
Proof.
  intros Hr. destruct (reachable_current_in_history s Hr) as [Hin _].
  split; [|split; [exact Hin|]].
  - intros E. rewrite E in Hin. exact Hin.
  - intros ds Hds.
    destruct (reachable_current_in_history _ (reach_desktops s ds Hr Hds))
      as [Hin' _].
    split; [reflexivity|]. intros E. rewrite E in Hin'. exact Hin'.
Qed.

(** Witness: start on d1, visit d2, then the desktop set is replaced by the
    same four desktops. *)
Lemma history_never_empty_witness :
  let s := desktopSetChange (switchDirectly (init ds4 "d1") "d2") ds4 in
  desktopHistory s <> [] /\
  In (currentDesktop s) (desktopHistory s) /\
  (forall ds : list desktop,
     In (currentDesktop s) (map id ds) ->
     desktopHistory (desktopSetChange s ds) =
       List.filter (fun d => existsb (fun e => String.eqb (id e) d) ds)
         (desktopHistory s) /\
     desktopHistory (desktopSetChange s ds) <> []).
Proof.
  apply history_never_empty.
  apply reach_desktops; [apply reach_visit; [apply reach_init|]|].
  - simpl. left. reflexivity.
  - simpl. right. left. reflexivity.
  - simpl. right. left. reflexivity.
Defined.

(** C4 (counterexample): from [visited4] (History [d1; d2; d3; d4], d4
    active), a desktop-set change that keeps all four desktops leaves
    History with four entries, not the single entry d4. *)
Lemma desktop_set_change_keeps_history :
  currentDesktop visited4 = "d4" /\
  desktopHistory (desktopSetChange visited4 ds4) = ["d1"; "d2"; "d3"; "d4"].
Proof. split; vm_compute; reflexivity. Qed.

(** ** The desktop number map *)

Lemma buildMapFrom_lookup (ds : list desktop) :
  forall (i : Z) (m : gmap Z string) (k : Z) (v : string),
  buildMapFrom i ds m !! k = Some v <->
  (exists (j : nat) (d : desktop),
     ds !! j = Some d /\ desktopNumberOf d (i + Z.of_nat j) = k /\ id d = v /\
     forall (j' : nat) (d' : desktop), (j < j')%nat -> ds !! j' = Some d' ->
       desktopNumberOf d' (i + Z.of_nat j') <> k) \/
  ((forall (j : nat) (d : desktop), ds !! j = Some d ->
      desktopNumberOf d (i + Z.of_nat j) <> k) /\ m !! k = Some v).
Proof.
  induction ds as [|d ds IH]; intros i m k v; cbn [buildMapFrom].
  - split.
    + intros H. right. split; [|exact H]. intros j d Hj. by rewrite lookup_nil in Hj.
    + intros [[j [d [Hj _]]]|[_ H]]; [by rewrite lookup_nil in Hj|exact H].
  - assert (Hsh : forall j : nat, i + Z.of_nat (S j) = i + 1 + Z.of_nat j) by lia.
    rewrite IH. split.
    + intros [[j [d' [Hj [Hk [Hv Hl]]]]]|[Hn Hm]].
      * left. exists (S j), d'. rewrite Hsh. split; [exact Hj|split; [exact Hk|split; [exact Hv|]]].
        intros [|j'] d'' Hlt Hj'; [lia|]. rewrite Hsh.
        apply (Hl j'); [lia|exact Hj'].
      * destruct (decide (desktopNumberOf d i = k)) as [<-|Hne].
        -- rewrite lookup_insert_eq in Hm. injection Hm as <-.
           left. exists 0%nat, d. rewrite Z.add_0_r.
           split; [done|split; [done|split; [done|]]].
           intros [|j'] d'' Hlt Hj'; [lia|]. rewrite Hsh. exact (Hn j' d'' Hj').
        -- rewrite lookup_insert_ne in Hm by exact Hne.
           right. split; [|exact Hm].
           intros [|j] d'' Hj; cbn in Hj.
           ++ injection Hj as <-. rewrite Z.add_0_r. exact Hne.
           ++ rewrite Hsh. exact (Hn j d'' Hj).
    + intros [[[|j] [d' [Hj [Hk [Hv Hl]]]]]|[Hn Hm]].
      * cbn in Hj. injection Hj as <-. rewrite Z.add_0_r in Hk. right.
        split.
        -- intros j d'' Hj. rewrite <- Hsh. apply (Hl (S j)); [lia|exact Hj].
        -- rewrite Hk, lookup_insert_eq. by rewrite Hv.
      * left. exists j, d'. rewrite <- Hsh. split; [exact Hj|split; [exact Hk|split; [exact Hv|]]].
        intros j' d'' Hlt Hj'. rewrite <- Hsh. apply (Hl (S j')); [lia|exact Hj'].
      * right. split.
        -- intros j d'' Hj. rewrite <- Hsh. exact (Hn (S j) d'' Hj).
        -- rewrite lookup_insert_ne; [exact Hm|].
           pose proof (Hn 0%nat d eq_refl) as H0. rewrite Z.add_0_r in H0. exact H0.
Qed.

(** C8 (amended): rebuilding produces one map, from desktop number to
    identifier. Slot [k] names the identifier of the last desktop (0-based
    position [j]) whose number is [k], the number being its
    [x11DesktopNumber] when that is present and non-zero and [j + 1]
    otherwise; a slot no desktop computes is absent, and an empty desktop
    list gives the empty map. *)
Theorem desktop_number_map_lookup (s : state) (k : Z) (v : string) :
  (desktopNumberMap (buildDesktopNumberMap s) !! k = Some v <->
   exists (j : nat) (d : desktop),
     desktops s !! j = Some d /\ desktopNumberOf d (Z.of_nat j) = k /\
     id d = v /\
     forall (j' : nat) (d' : desktop), (j < j')%nat -> desktops s !! j' = Some d' ->
       desktopNumberOf d' (Z.of_nat j') <> k) /\
  (desktops s = [] -> desktopNumberMap (buildDesktopNumberMap s) = ∅).
Proof.
  split.
  - unfold buildDesktopNumberMap; cbn. rewrite buildMapFrom_lookup.
    split.
    + intros [H|[_ H]]; [exact H|by rewrite lookup_empty in H].
    + intros H. by left.
  - intros E. unfold buildDesktopNumberMap; cbn. by rewrite E.
Qed.

(** C8 (counterexample): two desktops that both report number 1. The later
    one takes slot 1, slot 2 stays empty, and no slot leads to the first
    desktop: the script keeps no identifier-to-number map that would still
    give it a slot. *)
Lemma desktop_number_map_no_reverse :
  let s := init [mkDesktop "a" (Some 1); mkDesktop "b" (Some 1)] "a" in
  desktopNumberMap s !! 1 = Some "b" /\ desktopNumberMap s !! 2 = None /\
  forall k : Z, desktopNumberMap s !! k <> Some "a".
Proof.
  intros s. split; [vm_compute; reflexivity|]. split; [vm_compute; reflexivity|].
  intros k Hk.
  change (buildMapFrom 0 [mkDesktop "a" (Some 1); mkDesktop "b" (Some 1)] ∅ !! k
          = Some "a") in Hk.
  apply buildMapFrom_lookup in Hk.
  destruct Hk as [[j [d [Hj [Hk [Hv Hl]]]]]|[_ H]];
    [|by rewrite lookup_empty in H].
  destruct j as [|[|j]]; cbn in Hj; try discriminate; injection Hj as <-;
    cbn in Hv; try discriminate.
  apply (Hl 1%nat (mkDesktop "b" (Some 1))); [lia|reflexivity|].
  rewrite <- Hk. reflexivity.
Qed.

(** ** Further properties of the script *)

Lemma filter_removeFirst (x : string) (l : list string) :
  List.filter (fun y => negb (String.eqb y x)) (removeFirst x l) =
  List.filter (fun y => negb (String.eqb y x)) l.
Proof.
  induction l as [|y l IH]; simpl; [done|].
  destruct (String.eqb_spec y x) as [->|Hne]; simpl; [done|].
  destruct (String.eqb_spec y x); [congruence|]. simpl. by rewrite IH.
Qed.

Lemma length_removeFirst (x : string) (l : list string) :
  length (removeFirst x l) =
  if existsb (String.eqb x) l then pred (length l) else length l.
Proof.
  induction l as [|y l IH]; simpl; [done|].
  destruct (String.eqb_spec y x) as [->|Hne].
  - by rewrite String.eqb_refl.
  - destruct (String.eqb_spec x y) as [->|_]; [congruence|]. simpl.
    rewrite IH. destruct (existsb _ l) eqn:E; [|done].
    destruct l; [discriminate|]. simpl. done.
Qed.

Lemma lastEntry_Some (h : list string) (x : string) :
  lastEntry h = Some x -> exists h', h = h' ++ [x].
Proof.
  induction h as [|y h IH]; simpl; [discriminate|].
  destruct h as [|z h].
  - intros [= ->]. by exists [].
  - intros Hl. destruct (IH Hl) as [h' ->]. by exists (y :: h').
Qed.

Lemma filter_sublist (f : string -> bool) (l : list string) :
  sublist (List.filter f l) l.
Proof.
  induction l as [|y l IH]; simpl; [constructor|].
  destruct (f y); [apply sublist_skip|apply sublist_cons]; exact IH.
Qed.

Lemma filter_filter_same (f : string -> bool) (l : list string) :
  List.filter f (List.filter f l) = List.filter f l.
Proof.
  induction l as [|y l IH]; simpl; [done|].
  destruct (f y) eqn:E; simpl; [rewrite E, IH|]; done.
Qed.

(** [getDesktopFromHistory(index)] counts from the most recent entry: index
    0 is the last entry, index [i] the [i]-th before it; an index past the
    oldest entry, or a negative one, gives [null]. *)
Theorem getDesktopFromHistory_from_end (h : list string) (index : Z) :
  getDesktopFromHistory h index =
  if Z.leb 0 index then nth_error (rev h) (Z.to_nat index) else None.
Proof.
  unfold getDesktopFromHistory.
  destruct (Z.leb_spec 0 index) as [Hi|Hi].
  - rewrite nth_error_rev.
    destruct (Z.ltb_spec (Z.of_nat (length h)) (index + 1)).
    + destruct (Nat.ltb_spec (Z.to_nat index) (length h)); [lia|done].
    + destruct (Z.ltb_spec (Z.of_nat (length h) - 1 - index) 0); [lia|].
      destruct (Nat.ltb_spec (Z.to_nat index) (length h)); [|lia].
      f_equal. lia.
  - destruct (Z.ltb_spec (Z.of_nat (length h)) (index + 1)); [done|].
    destruct (Z.ltb_spec (Z.of_nat (length h) - 1 - index) 0); [done|].
    apply nth_error_None. lia.
Qed.

(** [addToHistory(d)] makes [d] the last entry, keeps the other entries in
    their order, and grows History by one exactly when [d] was absent. *)
Theorem addToHistory_moves_to_end (s : state) (d : string) :
  lastEntry (desktopHistory (addToHistory s d)) = Some d /\
  List.filter (fun y => negb (String.eqb y d)) (desktopHistory (addToHistory s d)) =
    List.filter (fun y => negb (String.eqb y d)) (desktopHistory s) /\
  length (desktopHistory (addToHistory s d)) =
    if existsb (String.eqb d) (desktopHistory s)
    then length (desktopHistory s) else S (length (desktopHistory s)).
Proof.
  unfold addToHistory; cbn [desktopHistory set_desktopHistory].
  split; [apply lastEntry_snoc|split].
  - rewrite List.filter_app, filter_removeFirst. simpl.
    rewrite String.eqb_refl. apply app_nil_r.
  - rewrite length_app, length_removeFirst. simpl.
    destruct (existsb _ _) eqn:E; [|lia].
    destruct (desktopHistory s); [discriminate|]. simpl. lia.
Qed.

(** In a duplicate-free History, adding the desktop that is already the
    last entry changes nothing. *)
Theorem addToHistory_last_noop (s : state) (d : string) :
  NoDup (desktopHistory s) ->
  lastEntry (desktopHistory s) = Some d ->
  addToHistory s d = s.
Proof.
  intros Hnd Hl. destruct (lastEntry_Some _ _ Hl) as [h' Eh].
  unfold addToHistory. rewrite Eh.
  rewrite Eh in Hnd. apply NoDup_app in Hnd as [_ [Hdis _]].
  rewrite removeFirst_app_notin.
  - rewrite app_nil_r, <- Eh. apply set_desktopHistory_same.
  - intros Hin. apply (Hdis d); [by apply list_elem_of_In|by left].
Qed.

Lemma addToHistory_last_noop_witness :
  addToHistory visited4 "d4" = visited4.
Proof.
  apply addToHistory_last_noop.
  - apply NoDup_ListNoDup. vm_compute.
    repeat constructor; simpl; intuition discriminate.
  - vm_compute. reflexivity.
Defined.

(** [cleanupHistory()] keeps exactly the entries naming existing desktops,
    in their order (the result is a sublist of History), and a second
    cleanup changes nothing. *)
Theorem cleanupHistory_keeps_existing (s : state) :
  (forall x, In x (desktopHistory (cleanupHistory s)) <->
             In x (desktopHistory s) /\ desktopExists s (Some x) = true) /\
  sublist (desktopHistory (cleanupHistory s)) (desktopHistory s) /\
  cleanupHistory (cleanupHistory s) = cleanupHistory s.
Proof.
  split; [|split].
  - intros x. unfold cleanupHistory; cbn. apply filter_In.
  - unfold cleanupHistory; cbn. apply filter_sublist.
  - destruct s as [ds cur m h i dl lt b]. unfold cleanupHistory; cbn.
    by rewrite filter_filter_same.
Qed.

(** [commitNavigationBuffer()] always clears the buffer and the index; a
    buffered desktop ends up as the last History entry, whether or not it
    still exists; without a buffer History is untouched. *)
Theorem commitNavigationBuffer_spec (s : state) :
  navigationBuffer (commitNavigationBuffer s) = None /\
  historyIndex (commitNavigationBuffer s) = 0 /\
  (forall b, navigationBuffer s = Some b ->
     lastEntry (desktopHistory (commitNavigationBuffer s)) = Some b) /\
  (navigationBuffer s = None ->
     desktopHistory (commitNavigationBuffer s) = desktopHistory s).
Proof.
  unfold commitNavigationBuffer.
  destruct (navigationBuffer s) as [b|] eqn:Eb.
  - destruct (lastEntry (desktopHistory s)) as [l|] eqn:El;
      [destruct (String.eqb_spec l b) as [->|Hne]|]; cbn;
      (split; [done|split; [done|split]]); try discriminate;
      intros b' [= <-]; first [exact El|apply lastEntry_snoc].
  - cbn. split; [done|split; [done|split]]; [discriminate|done].
Qed.

Lemma navigateToDesktop_fields (s : state) (d : option string) :
  desktopHistory (navigateToDesktop s d) = desktopHistory s /\
  historyIndex (navigateToDesktop s d) = historyIndex s /\
  lastTriggerTime (navigateToDesktop s d) = lastTriggerTime s /\
  navigationBuffer (navigateToDesktop s d) = navigationBuffer s.
Proof. unfold navigateToDesktop. repeat case_match; done. Qed.

Lemma navigation_finish_fields (s : state) (t : option string) :
  desktopHistory (if desktopExists s t
                  then set_navigationBuffer (navigateToDesktop s t) t else s) =
    desktopHistory s /\
  historyIndex (if desktopExists s t
                then set_navigationBuffer (navigateToDesktop s t) t else s) =
    historyIndex s /\
  lastTriggerTime (if desktopExists s t
                   then set_navigationBuffer (navigateToDesktop s t) t else s) =
    lastTriggerTime s.
Proof.
  destruct (desktopExists s t); [|done].
  destruct (navigateToDesktop_fields s t) as [H1 [H2 [H3 _]]]. cbn. done.
Qed.

Lemma commitNavigationBuffer_last (s : state) (b : string) :
  navigationBuffer s = Some b ->
  lastEntry (desktopHistory (commitNavigationBuffer s)) = Some b.
Proof.
  intros Hb. unfold commitNavigationBuffer. rewrite Hb.
  destruct (lastEntry (desktopHistory s)) as [l|] eqn:El;
    [destruct (String.eqb_spec l b) as [->|Hne]|]; cbn;
    first [exact El|apply lastEntry_snoc].
Qed.

Lemma lastEntry_In (h : list string) (x : string) :
  lastEntry h = Some x -> In x h.
Proof.
  intros Hl. destruct (lastEntry_Some h x Hl) as [h' ->].
  apply in_or_app. right. by left.
Qed.

(** A fresh previous-desktop press commits the buffered desktop of the last
    walk into History before anything else, without checking that this
    desktop still exists. *)
Theorem fresh_press_keeps_buffered (s : state) (now : Z) (b : string) :
  continuationDelay s <= now - lastTriggerTime s ->
  navigationBuffer s = Some b ->
  In b (desktopHistory (handleHistoryNavigation s now)).
Proof.
  intros Hfresh Hb. unfold handleHistoryNavigation, isContinuation.
  replace (Z.ltb (now - lastTriggerTime (cleanupHistory s))
                 (continuationDelay (cleanupHistory s))) with false
    by (symmetry; apply Z.ltb_ge; cbn; lia).
  cbn zeta iota beta. rewrite (proj1 (navigation_finish_fields _ _)).
  cbn [desktopHistory set_historyIndex].
  assert (Hin : In b (desktopHistory
                  (commitNavigationBuffer (set_lastTriggerTime (cleanupHistory s) now)))).
  { apply lastEntry_In, commitNavigationBuffer_last. exact Hb. }
  destruct (existsb _ _); [exact Hin|by apply In_addToHistory_keep].
Qed.

(** Witness: from [staleBuffer4] (buffer d3), d3 is removed from the desktop
    set; a fresh press puts d3 back into History. *)
Lemma fresh_press_keeps_buffered_witness :
  In "d3" (desktopHistory (handleHistoryNavigation
    (desktopSetChange staleBuffer4
       [mkDesktop "d1" (Some 1); mkDesktop "d2" (Some 2); mkDesktop "d4" (Some 4)])
    5000)).
Proof.
  apply fresh_press_keeps_buffered; vm_compute; [discriminate|reflexivity].
Defined.

(** A press within the continuation delay only drops removed desktops from
    History (it never reorders or adds entries), moves the index one step
    further back and restarts the timer. *)
Theorem continuation_press_walks (s : state) (now : Z) :
  now - lastTriggerTime s < continuationDelay s ->
  desktopHistory (handleHistoryNavigation s now) =
    List.filter (fun d => desktopExists s (Some d)) (desktopHistory s) /\
  historyIndex (handleHistoryNavigation s now) = historyIndex s + 1 /\
  lastTriggerTime (handleHistoryNavigation s now) = now.
Proof.
  intros Hcont. unfold handleHistoryNavigation, isContinuation, getNextHistoryDesktop.
  replace (Z.ltb (now - lastTriggerTime (cleanupHistory s))
                 (continuationDelay (cleanupHistory s))) with true
    by (symmetry; apply Z.ltb_lt; cbn; lia).
  cbn zeta iota beta.
  destruct (navigation_finish_fields
    (set_historyIndex (set_lastTriggerTime (cleanupHistory s) now)
       (historyIndex (set_lastTriggerTime (cleanupHistory s) now) + 1))
    (getDesktopFromHistory
       (desktopHistory (set_historyIndex (set_lastTriggerTime (cleanupHistory s) now)
          (historyIndex (set_lastTriggerTime (cleanupHistory s) now) + 1)))
       (historyIndex (set_historyIndex (set_lastTriggerTime (cleanupHistory s) now)
          (historyIndex (set_lastTriggerTime (cleanupHistory s) now) + 1)))))
    as [H1 [H2 H3]].
  rewrite H1, H2, H3. cbn. done.
Qed.

(** Witness: the second of two presses 200 ms apart. *)
Lemma continuation_press_walks_witness :
  desktopHistory (handleHistoryNavigation (pressPrevious visited4 1000) 1200) =
    List.filter (fun d => desktopExists (pressPrevious visited4 1000) (Some d))
      (desktopHistory (pressPrevious visited4 1000)) /\
  historyIndex (handleHistoryNavigation (pressPrevious visited4 1000) 1200) =
    historyIndex (pressPrevious visited4 1000) + 1 /\
  lastTriggerTime (handleHistoryNavigation (pressPrevious visited4 1000) 1200) = 1200.
Proof.
  apply continuation_press_walks. vm_compute. reflexivity.
Defined.

Lemma getDesktopFromHistory_In (h : list string) (i : Z) (x : string) :
  getDesktopFromHistory h i = Some x -> In x h.
Proof.
  unfold getDesktopFromHistory.
  destruct (Z.ltb _ _); [discriminate|]. destruct (Z.ltb _ _); [discriminate|].
  apply nth_error_In.
Qed.

Lemma navigation_finish_switch (s : state) (i : Z) :
  currentDesktop
    (if desktopExists s (getDesktopFromHistory (desktopHistory s) i)
     then set_navigationBuffer
            (navigateToDesktop s (getDesktopFromHistory (desktopHistory s) i))
            (getDesktopFromHistory (desktopHistory s) i)
     else s) <> currentDesktop s ->
  let s' := if desktopExists s (getDesktopFromHistory (desktopHistory s) i)
            then set_navigationBuffer
                   (navigateToDesktop s (getDesktopFromHistory (desktopHistory s) i))
                   (getDesktopFromHistory (desktopHistory s) i)
            else s in
  navigationBuffer s' = Some (currentDesktop s') /\
  desktopExists s' (Some (currentDesktop s')) = true /\
  In (currentDesktop s') (desktopHistory s').
Proof.
  intros Hne s'. subst s'.
  destruct (desktopExists s _) eqn:E; [|contradiction].
  destruct (getDesktopFromHistory (desktopHistory s) i) as [x|] eqn:Et;
    [|discriminate E].
  rewrite navigateToDesktop_exists by exact E. cbn.
  split; [done|split; [exact E|]].
  exact (getDesktopFromHistory_In _ _ _ Et).
Qed.

Lemma commitNavigationBuffer_current (s : state) :
  currentDesktop (commitNavigationBuffer s) = currentDesktop s /\
  desktops (commitNavigationBuffer s) = desktops s.
Proof. unfold commitNavigationBuffer. repeat case_match; done. Qed.

(** Whenever a previous-desktop press changes the active desktop, the new
    desktop exists, is an entry of History, and is the one held in the
    navigation buffer. *)
Theorem previous_press_switch_buffered (s : state) (now : Z) :
  currentDesktop (handleHistoryNavigation s now) <> currentDesktop s ->
  navigationBuffer (handleHistoryNavigation s now) =
    Some (currentDesktop (handleHistoryNavigation s now)) /\
  desktopExists (handleHistoryNavigation s now)
    (Some (currentDesktop (handleHistoryNavigation s now))) = true /\
  In (currentDesktop (handleHistoryNavigation s now))
     (desktopHistory (handleHistoryNavigation s now)).
Proof.
  unfold handleHistoryNavigation, isContinuation, getNextHistoryDesktop.
  destruct (Z.ltb _ _); cbn zeta iota beta; intros Hne.
  - apply navigation_finish_switch. exact Hne.
  - destruct (commitNavigationBuffer_current
                (set_lastTriggerTime (cleanupHistory s) now)) as [Hc _].
    set (s4 := commitNavigationBuffer (set_lastTriggerTime (cleanupHistory s) now)) in *.
    clearbody s4. cbn in Hc.
    destruct (existsb _ _); apply navigation_finish_switch;
      cbn [currentDesktop set_historyIndex addToHistory set_desktopHistory];
      rewrite Hc; exact Hne.
Qed.

Lemma previous_press_switch_buffered_witness :
  navigationBuffer (handleHistoryNavigation visited4 1000) =
    Some (currentDesktop (handleHistoryNavigation visited4 1000)) /\
  desktopExists (handleHistoryNavigation visited4 1000)
    (Some (currentDesktop (handleHistoryNavigation visited4 1000))) = true /\
  In (currentDesktop (handleHistoryNavigation visited4 1000))
     (desktopHistory (handleHistoryNavigation visited4 1000)).
Proof.
  apply previous_press_switch_buffered. vm_compute. discriminate.
Defined.

Lemma NoDup_all_eq (l : list string) (c : string) :
  NoDup l -> (forall x, In x l -> x = c) -> l = [] \/ l = [c].
Proof.
  intros Hnd Hall. destruct l as [|a l]; [by left|right].
  assert (a = c) as -> by (apply Hall; by left).
  destruct l as [|b l]; [done|].
  assert (b = c) as -> by (apply Hall; right; by left).
  inversion Hnd as [|? ? Hn _]; subst. exfalso. apply Hn. by left.
Qed.

(** A fresh press when no desktop other than the active one is left in
    History (and no walk is buffered) does not switch: History becomes the
    single active desktop. *)
Theorem fresh_press_alone_stays (s : state) (now : Z) :
  continuationDelay s <= now - lastTriggerTime s ->
  navigationBuffer s = None ->
  NoDup (desktopHistory s) ->
  (forall x, In x (desktopHistory s) -> desktopExists s (Some x) = true ->
     x = currentDesktop s) ->
  currentDesktop (handleHistoryNavigation s now) = currentDesktop s /\
  desktopHistory (handleHistoryNavigation s now) = [currentDesktop s].
Proof.
  intros Hfresh Hb Hnd Hall.
  assert (Hl : List.filter (fun d => desktopExists s (Some d)) (desktopHistory s) = [] \/
               List.filter (fun d => desktopExists s (Some d)) (desktopHistory s) =
                 [currentDesktop s]).
  { apply NoDup_all_eq.
    - apply NoDup_ListNoDup, List.NoDup_filter, NoDup_ListNoDup, Hnd.
    - intros x Hx. apply filter_In in Hx as [Hx Hex]. by apply Hall. }
  destruct s as [ds cur m h i dl lt b]; cbn in *. subst b.
  unfold handleHistoryNavigation, isContinuation.
  replace (Z.ltb _ _) with false by (symmetry; apply Z.ltb_ge; cbn; lia).
  unfold cleanupHistory, commitNavigationBuffer. cbn.
  destruct Hl as [E|E]; unfold desktopExists in E; cbn in E; rewrite E; cbn;
    rewrite ?String.eqb_refl; cbn; done.
Qed.

Lemma fresh_press_alone_stays_witness :
  currentDesktop (handleHistoryNavigation (init ds4 "d1") 1000) = "d1" /\
  desktopHistory (handleHistoryNavigation (init ds4 "d1") 1000) = ["d1"].
Proof.
  apply (fresh_press_alone_stays (init ds4 "d1") 1000).
  - vm_compute. discriminate.
  - reflexivity.
  - apply NoDup_singleton.
  - intros x [<-|[]] _. reflexivity.
Defined.

Lemma string_eqb_nonempty (t : string) : t <> "" -> String.eqb t "" = false.
Proof. intros H. by apply String.eqb_neq. Qed.

(** A toggle press for a slot whose desktop [t] exists and is not the
    active one switches to [t]; KWin's confirmation then moves [t] to the
    back of History. *)
Theorem toggle_switches_to_slot (s : state) (n : Z) (t : string) :
  desktopNumberMap s !! n = Some t ->
  t <> "" ->
  desktopExists s (Some t) = true ->
  currentDesktop s <> t ->
  currentDesktop (pressToggle s n) = t /\
  desktopHistory (pressToggle s n) = removeFirst t (desktopHistory s) ++ [t].
Proof.
  intros Hm Ht Hex Hne. unfold pressToggle, handleDirectDesktopNavigation.
  rewrite Hm, string_eqb_nonempty by exact Ht. rewrite Hex. cbn [negb].
  destruct (String.eqb_spec (currentDesktop s) t) as [|_]; [contradiction|].
  rewrite navigateToDesktop_exists by exact Hex.
  unfold confirm. cbn. destruct (String.eqb_spec (currentDesktop s) t); [contradiction|].
  done.
Qed.

Lemma toggle_switches_to_slot_witness :
  currentDesktop (pressToggle visited4 2) = "d2" /\
  desktopHistory (pressToggle visited4 2) =
    removeFirst "d2" (desktopHistory visited4) ++ ["d2"].
Proof.
  apply toggle_switches_to_slot; vm_compute; try reflexivity; discriminate.
Defined.

Lemma findPrevious_skip (s : state) (cur : string) (l r : list string) :
  Forall (fun y => y = cur \/ desktopExists s (Some y) = false) l ->
  findPrevious s cur (l ++ r) = findPrevious s cur r.
Proof.
  induction 1 as [|y l Hy _ IH]; cbn [findPrevious app]; [done|].
  rewrite IH. destruct Hy as [->|Hy].
  - by rewrite String.eqb_refl.
  - rewrite Hy. by rewrite andb_false_r.
Qed.

(** A toggle press for the slot of the active desktop switches to the most
    recent History entry that is another, still existing desktop: entries
    after it in History are skipped only when they are the active desktop or
    name removed desktops. *)
Theorem toggle_on_current_goes_back (s : state) (n : Z)
    (pre post : list string) (p : string) :
  desktopNumberMap s !! n = Some (currentDesktop s) ->
  currentDesktop s <> "" ->
  desktopExists s (Some (currentDesktop s)) = true ->
  desktopHistory s = pre ++ p :: post ->
  p <> currentDesktop s -> p <> "" -> desktopExists s (Some p) = true ->
  Forall (fun y => y = currentDesktop s \/ desktopExists s (Some y) = false) post ->
  currentDesktop (pressToggle s n) = p /\
  desktopHistory (pressToggle s n) = removeFirst p (desktopHistory s) ++ [p].
Proof.
  intros Hm Hc Hcex Hh Hp Hpe Hpex Hpost.
  unfold pressToggle, handleDirectDesktopNavigation.
  rewrite Hm, string_eqb_nonempty by exact Hc. rewrite Hcex, String.eqb_refl.
  cbn [negb].
  rewrite Hh, rev_app_distr. cbn [rev]. rewrite <- app_assoc.
  rewrite findPrevious_skip by (apply Forall_rev, Hpost).
  cbn [findPrevious app]. destruct (String.eqb_spec p (currentDesktop s)) as [|_];
    [contradiction|].
  rewrite Hpex. cbn [negb andb]. rewrite string_eqb_nonempty by exact Hpe.
  rewrite navigateToDesktop_exists by exact Hpex.
  unfold confirm. cbn.
  destruct (String.eqb_spec (currentDesktop s) p); [congruence|].
  cbn. rewrite <- Hh. done.
Qed.

(** Witness: on d4 (History [d1; d2; d3; d4]) the toggle for slot 4 goes
    to d3. *)
Lemma toggle_on_current_goes_back_witness :
  currentDesktop (pressToggle visited4 4) = "d3" /\
  desktopHistory (pressToggle visited4 4) =
    removeFirst "d3" (desktopHistory visited4) ++ ["d3"].
Proof.
  apply (toggle_on_current_goes_back visited4 4 ["d1"; "d2"] ["d4"] "d3");
    try (vm_compute; reflexivity); try (vm_compute; discriminate).
  repeat constructor.
Defined.

(** A toggle press for the slot of the active desktop changes nothing when
    History holds no other existing desktop. *)
Theorem toggle_without_previous_noop (s : state) (n : Z) :
  desktopNumberMap s !! n = Some (currentDesktop s) ->
  currentDesktop s <> "" ->
  desktopExists s (Some (currentDesktop s)) = true ->
  Forall (fun y => y = currentDesktop s \/ desktopExists s (Some y) = false)
    (desktopHistory s) ->
  pressToggle s n = s.
Proof.
  intros Hm Hc Hcex Hall.
  unfold pressToggle, handleDirectDesktopNavigation.
  rewrite Hm, string_eqb_nonempty by exact Hc. rewrite Hcex, String.eqb_refl.
  cbn [negb].
  rewrite <- (app_nil_r (rev (desktopHistory s))).
  rewrite findPrevious_skip by (apply Forall_rev, Hall).
  unfold confirm. cbn. by rewrite String.eqb_refl.
Qed.

Lemma toggle_without_previous_noop_witness :
  pressToggle (init ds4 "d1") 1 = init ds4 "d1".
Proof.
  apply toggle_without_previous_noop; try (vm_compute; reflexivity);
    try (vm_compute; discriminate).
  repeat constructor.
Defined.

Lemma buildMapFrom_values (ds : list desktop) (k : Z) (v : string) :
  buildMapFrom 0 ds ∅ !! k = Some v -> In v (map id ds).
Proof.
  rewrite buildMapFrom_lookup.
  intros [[j [d [Hj [_ [<- _]]]]]|[_ H]]; [|by rewrite lookup_empty in H].
  apply in_map, list_elem_of_In. by eapply list_elem_of_lookup_2.
Qed.

(** Every identifier in a rebuilt desktop number map names a desktop of the
    current desktop list. *)
Theorem desktop_number_map_values_exist (s : state) (k : Z) (v : string) :
  desktopNumberMap (buildDesktopNumberMap s) !! k = Some v ->
  desktopExists s (Some v) = true.
Proof.
  intros Hk. apply desktopExists_In. exact (buildMapFrom_values _ _ _ Hk).
Qed.

Lemma desktop_number_map_values_exist_witness :
  desktopExists visited4 (Some "d2") = true.
Proof.
  apply (desktop_number_map_values_exist visited4 2). vm_compute. reflexivity.
Defined.

(** A toggle press for a slot whose identifier no longer names a desktop
    only rebuilds the desktop number map; afterwards no slot leads to that
    identifier. *)
Theorem stale_slot_rebuilds_map (s : state) (n : Z) (t : string) :
  desktopNumberMap s !! n = Some t ->
  t <> "" ->
  desktopExists s (Some t) = false ->
  pressToggle s n = buildDesktopNumberMap s /\
  forall k, desktopNumberMap (pressToggle s n) !! k <> Some t.
Proof.
  intros Hm Ht Hex.
  assert (E : pressToggle s n = buildDesktopNumberMap s).
  { unfold pressToggle, handleDirectDesktopNavigation.
    rewrite Hm, string_eqb_nonempty by exact Ht. rewrite Hex. cbn [negb].
    unfold confirm.
    change (currentDesktop (buildDesktopNumberMap s)) with (currentDesktop s).
    by rewrite String.eqb_refl. }
  split; [exact E|]. intros k Hk. rewrite E in Hk.
  change (buildMapFrom 0 (desktops s) ∅ !! k = Some t) in Hk.
  apply buildMapFrom_values in Hk. apply desktopExists_In in Hk. congruence.
Qed.

(** Witness: d4 disappears from [visited4] without a rebuild yet; the toggle
    for slot 4 rebuilds the map. *)
Lemma stale_slot_rebuilds_map_witness :
  pressToggle (set_desktops visited4 (firstn 3 ds4)) 4 =
    buildDesktopNumberMap (set_desktops visited4 (firstn 3 ds4)) /\
  desktopNumberMap (pressToggle (set_desktops visited4 (firstn 3 ds4)) 4) !! 4
    <> Some "d4".
Proof.
  destruct (stale_slot_rebuilds_map (set_desktops visited4 (firstn 3 ds4)) 4 "d4")
    as [H1 H2]; [vm_compute; reflexivity|discriminate|vm_compute; reflexivity|].
  split; [exact H1|apply H2].
Defined.

Lemma desktopNumberOf_positional (d : desktop) (i : Z) :
  x11DesktopNumber d = None \/ x11DesktopNumber d = Some 0 ->
  desktopNumberOf d i = i + 1.
Proof. unfold desktopNumberOf. by intros [->| ->]. Qed.

Lemma buildMapFrom_positional (ds : list desktop) (k : Z) (v : string) :
  Forall (fun d => x11DesktopNumber d = None \/ x11DesktopNumber d = Some 0) ds ->
  buildMapFrom 0 ds ∅ !! k = Some v <->
  1 <= k <= Z.of_nat (length ds) /\
  exists d, ds !! Z.to_nat (k - 1) = Some d /\ id d = v.
Proof.
  intros Hall.
  assert (Hn : forall j d, ds !! j = Some d -> desktopNumberOf d (0 + Z.of_nat j) = Z.of_nat j + 1).
  { intros j d Hj. apply desktopNumberOf_positional.
    rewrite List.Forall_forall in Hall. apply Hall, list_elem_of_In.
    by eapply list_elem_of_lookup_2. }
  rewrite buildMapFrom_lookup. split.
  - intros [[j [d [Hj [Hk [Hv _]]]]]|[_ H]]; [|by rewrite lookup_empty in H].
    rewrite Hn in Hk by exact Hj. apply lookup_lt_Some in Hj as Hlt.
    split; [lia|]. exists d. by replace (Z.to_nat (k - 1)) with j by lia.
  - intros [Hk [d [Hj Hv]]]. left. exists (Z.to_nat (k - 1)), d.
    split; [exact Hj|]. split; [rewrite Hn by exact Hj; lia|]. split; [exact Hv|].
    intros j' d' Hlt Hj'. rewrite Hn by exact Hj'. lia.
Qed.

(** When no desktop reports a non-zero X11 number, the rebuilt map sends
    slot [k] to the [k]-th desktop of the list (1-based) for [k] from 1 to
    the number of desktops, and has no other slot. *)
Theorem desktop_number_map_positional (s : state) :
  Forall (fun d => x11DesktopNumber d = None \/ x11DesktopNumber d = Some 0)
    (desktops s) ->
  forall k v,
  desktopNumberMap (buildDesktopNumberMap s) !! k = Some v <->
  1 <= k <= Z.of_nat (length (desktops s)) /\
  exists d, desktops s !! Z.to_nat (k - 1) = Some d /\ id d = v.
Proof.
  intros Hall k v. unfold buildDesktopNumberMap.
  cbn [desktopNumberMap set_desktopNumberMap desktops].
  apply buildMapFrom_positional, Hall.
Qed.

Lemma desktop_number_map_positional_witness :
  desktopNumberMap (buildDesktopNumberMap (init hintless2 "x")) !! 2 = Some "y".
Proof.
  apply (desktop_number_map_positional (init hintless2 "x")).
  - repeat apply Forall_cons; try apply Forall_nil; cbn; auto.
  - split; [cbn; lia|]. exists (mkDesktop "y" (Some 0)). split; reflexivity.
Defined.

(** At start-up, when no desktop reports a non-zero X11 number, every slot
    of the desktop number map has a registered "Go to Desktop" shortcut. *)
Theorem startup_slots_have_shortcuts (ds : list desktop) (cur : string) :
  Forall (fun d => x11DesktopNumber d = None \/ x11DesktopNumber d = Some 0) ds ->
  forall k v, desktopNumberMap (init ds cur) !! k = Some v ->
  In (GoToDesktop k) (registerShortcuts (length ds)).
Proof.
  intros Hall k v Hk.
  change (buildMapFrom 0 ds ∅ !! k = Some v) in Hk.
  apply (buildMapFrom_positional ds k v Hall) in Hk as [Hk _].
  unfold registerShortcuts. right. apply in_map_iff. exists (Z.to_nat k).
  split; [f_equal; lia|]. apply in_seq. lia.
Qed.

Lemma startup_slots_have_shortcuts_witness :
  In (GoToDesktop 2) (registerShortcuts (length hintless2)).
Proof.
  assert (Hall : Forall (fun d => x11DesktopNumber d = None \/
                                 x11DesktopNumber d = Some 0) hintless2)
    by (repeat apply Forall_cons; try apply Forall_nil; cbn; auto).
  apply (startup_slots_have_shortcuts hintless2 "x" Hall 2 "y").
  vm_compute. reflexivity.
Defined.

Lemma handleDirectDesktopNavigation_history (s : state) (n : Z) :
  desktopHistory (handleDirectDesktopNavigation s n) = desktopHistory s.
Proof.
  unfold handleDirectDesktopNavigation.
  repeat case_match; try apply navigateToDesktop_history; done.
Qed.

Lemma NoDup_confirm (before after : state) :
  NoDup (desktopHistory after) -> NoDup (desktopHistory (confirm before after)).
Proof.
  intros Hnd. unfold confirm. destruct (String.eqb _ _); [exact Hnd|].
  by apply NoDup_addToHistory.
Qed.

(** History never holds a duplicate identifier in any state the script can
    reach, whatever mix of visits, presses and desktop-set changes led to
    it. *)
Theorem reachable_history_NoDup (s : state) :
  reachable s -> NoDup (desktopHistory s).
Proof.
  induction 1 as [ds cur _|s d _ IH _|s t _ IH|s n _ IH|s ds _ IH _].
  - apply NoDup_singleton.
  - by apply NoDup_addToHistory.
  - by apply NoDup_confirm, handleHistoryNavigation_NoDup.
  - apply NoDup_confirm. by rewrite handleDirectDesktopNavigation_history.
  - apply NoDup_cleanupHistory. exact IH.
Qed.

Lemma reachable_history_NoDup_witness :
  NoDup (desktopHistory (pressPrevious (switchDirectly (init ds4 "d1") "d2") 1000)).
Proof.
  apply reachable_history_NoDup, reach_previous, reach_visit;
    [apply reach_init; simpl; auto|simpl; auto].
Defined.

(** After a desktop-set change, every History entry and every identifier of
    the desktop number map names a desktop of the new set. *)
Theorem desktops_changed_consistent (s : state) (ds : list desktop) :
  (forall x, In x (desktopHistory (desktopSetChange s ds)) -> In x (map id ds)) /\
  (forall k v, desktopNumberMap (desktopSetChange s ds) !! k = Some v ->
     In v (map id ds)).
Proof.
  split.
  - intros x Hx. unfold desktopSetChange, onDesktopsChanged, cleanupHistory in Hx.
    cbn [desktopHistory set_desktopHistory] in Hx.
    apply filter_In in Hx as [_ Hx].
    exact (proj1 (desktopExists_In (buildDesktopNumberMap (set_desktops s ds)) x) Hx).
  - intros k v Hk.
    change (buildMapFrom 0 ds ∅ !! k = Some v) in Hk.
    exact (buildMapFrom_values _ _ _ Hk).
Qed.
